(** * Thorin session store: a shallow embedding of [lib/sessionStore.js]

    The module exports a factory [function(thorin, opt)] that returns the
    class [ThorinSessionStore].  The embedding follows the file top to
    bottom: JavaScript values and the few primitives the file relies on,
    the effects of a method call (an exception, the logger, the calls made
    on the attached backend), the host services consumed through [thorin],
    and then the functions of the file under their own names.
    [generateId] takes what it draws from the host's randomness and clock
    as an argument. *)

From Stdlib Require Import String Ascii List ZArith Bool Lia DecimalString.
Import ListNotations.
Local Open Scope list_scope.
Local Open Scope string_scope.
Set Warnings "-register-all".

(** ** JavaScript values *)

Module JS.

(** The values that flow through the session store.  Numbers are restricted
    to integers; function values are not data and are left out, so a
    property read never yields something callable.  [VError] is the object
    built by [thorin.error(code, message)] (or a built-in error, with its
    name as code); [VSession] is an instance of [SessionData];
    [VStringObject] is a [String] object, [new String(s)]: an object that
    carries the methods of the text it wraps. *)
Inductive value : Type :=
| VUndefined
| VNull
| VBool (b : bool)
| VNum (n : Z)
| VStr (s : string)
| VArr (items : list value)
| VObj (fields : list (string * value))
| VError (code message : string)
| VSession (id data : value) (dirty : bool)
| VStringObject (s : string).

(** [typeof v] *)
Definition typeof (v : value) : string :=
  match v with
  | VUndefined => "undefined"
  | VBool _ => "boolean"
  | VNum _ => "number"
  | VStr _ => "string"
  | VNull | VArr _ | VObj _ | VError _ _ | VSession _ _ _ | VStringObject _ => "object"
  end.

(** ToBoolean: what [if(v)] and [!v] test. *)
Definition truthy (v : value) : bool :=
  match v with
  | VUndefined | VNull => false
  | VBool b => b
  | VNum n => negb (n =? 0)%Z
  | VStr s => negb (s =? "")
  | VArr _ | VObj _ | VError _ _ | VSession _ _ _ | VStringObject _ => true
  end.

Definition string_of_Z (n : Z) : string := NilZero.string_of_int (Z.to_int n).

(** ToString, as string concatenation and template literals apply it. *)
Fixpoint to_string (v : value) : string :=
  match v with
  | VUndefined => "undefined"
  | VNull => "null"
  | VBool true => "true"
  | VBool false => "false"
  | VNum n => string_of_Z n
  | VStr s | VStringObject s => s
  | VArr items =>
      let elem x := match x with
                    | VUndefined | VNull => ""
                    | _ => to_string x
                    end in
      (fix join (l : list value) : string :=
         match l with
         | [] => ""
         | x :: rest =>
             match rest with
             | [] => elem x
             | _ :: _ => elem x ++ "," ++ join rest
             end
         end) items
  | VObj _ | VSession _ _ _ => "[object Object]"
  | VError code message => code ++ ": " ++ message
  end.

Fixpoint lookup (k : string) (fields : list (string * value)) : value :=
  match fields with
  | [] => VUndefined
  | (k', v) :: rest => if k' =? k then v else lookup k rest
  end.

(** The outcome of an expression that may throw. *)
Inductive result (A : Type) : Type :=
| Ret (a : A)
| Throw (e : value).
Arguments Ret {A} a.
Arguments Throw {A} e.

Definition TypeError (message : string) : value := VError "TypeError" message.

(** [v.name], for the data properties this file reads ([type], [path],
    [id]) and for a method looked up where there is none: reading a
    property of [undefined] or [null] throws; an object gives the field or
    [undefined]; a [SessionData] carries its [id]; on any other value
    these names read as [undefined].  The methods of strings and [String]
    objects are called through [call_split] and [call_substr]. *)
Definition get_prop (v : value) (name : string) : result value :=
  match v with
  | VUndefined | VNull =>
      Throw (TypeError ("Cannot read property '" ++ name ++ "' of " ++ to_string v))
  | VObj fields => Ret (lookup name fields)
  | VSession id _ _ => Ret (if name =? "id" then id else VUndefined)
  | VError code message =>
      Ret (if name =? "code" then VStr code
           else if name =? "message" then VStr message else VUndefined)
  | _ => Ret VUndefined
  end.

(** [s.split(sep)] for a separator of one character. *)
Fixpoint split (sep : ascii) (s : string) : list string :=
  match s with
  | EmptyString => [""]
  | String c rest =>
      if Ascii.eqb c sep then "" :: split sep rest
      else match split sep rest with
           | [] => [String c ""]
           | seg :: segs => String c seg :: segs
           end
  end.

(** [segs.join(sep)] *)
Fixpoint join (sep : ascii) (segs : list string) : string :=
  match segs with
  | [] => ""
  | seg :: rest =>
      match rest with
      | [] => seg
      | _ :: _ => seg ++ String sep (join sep rest)
      end
  end.

(** How many times [sep] occurs in [s]. *)
Fixpoint occurrences (sep : ascii) (s : string) : nat :=
  match s with
  | EmptyString => 0
  | String c rest => (if Ascii.eqb c sep then 1 else 0) + occurrences sep rest
  end.

(** [s.charAt(0)] *)
Definition charAt0 (s : string) : string :=
  match s with
  | EmptyString => ""
  | String c _ => String c ""
  end.

(** [v === s] for a string literal [s]. *)
Definition is_string (v : value) (s : string) : bool :=
  match v with
  | VStr t => t =? s
  | _ => false
  end.

(** [v === false] *)
Definition is_false (v : value) : bool :=
  match v with
  | VBool false => true
  | _ => false
  end.

(** [v == null] *)
Definition is_nullish (v : value) : bool :=
  match v with
  | VUndefined | VNull => true
  | _ => false
  end.

(** The values that carry the methods of a string: a string, and a
    [String] object. *)
Definition has_string_methods (v : value) : bool :=
  match v with
  | VStr _ | VStringObject _ => true
  | _ => false
  end.

(** [v.split(sep)]: the method exists on strings and [String] objects; on
    any other value the property read throws or yields something that is
    not callable. *)
Definition call_split (v : value) (sep : ascii) : result (list string) :=
  match v with
  | VStr s | VStringObject s => Ret (split sep s)
  | _ =>
      match get_prop v "split" with
      | Throw e => Throw e
      | Ret _ => Throw (TypeError "sid.split is not a function")
      end
  end.

(** [s.replace(/c/g, '')] for a pattern of one character. *)
Fixpoint remove_all (c : ascii) (s : string) : string :=
  match s with
  | EmptyString => ""
  | String d rest =>
      if Ascii.eqb d c then remove_all c rest else String d (remove_all c rest)
  end.

(** [v.substr(start, len)]: a method of strings and [String] objects. *)
Definition call_substr (v : value) (start len : nat) : result string :=
  match v with
  | VStr s | VStringObject s => Ret (substring start len s)
  | _ =>
      match get_prop v "substr" with
      | Throw e => Throw e
      | Ret _ => Throw (TypeError "hash.substr is not a function")
      end
  end.

End JS.
Import JS.

(** ** Effects of a method call

    A method may throw, writes to the logger, and calls the attached
    backend.  The backend adapters are outside this file: an adapter is
    known by the arguments it hands to the callback of a call, which may
    depend on every call made on it before. *)

Inductive call : Type :=
| CSave (key data : value)
| CRead (key : value)
| CDestroy (key : value).

Record Backend : Type := {
  b_type : string;
  b_reply : list call -> call -> list value
}.

Inductive level : Type := LError | LWarn.

Record world : Type := {
  w_log : list (level * string);
  w_calls : list call
}.

Definition M (A : Type) : Type := world -> result A * world.

Definition ret {A : Type} (a : A) : M A := fun w => (Ret a, w).

Definition throw {A : Type} (e : value) : M A := fun w => (Throw e, w).

Definition bind {A B : Type} (m : M A) (k : A -> M B) : M B :=
  fun w =>
    match m w with
    | (Ret a, w') => k a w'
    | (Throw e, w') => (Throw e, w')
    end.

Definition lift {A : Type} (r : result A) : M A := fun w => (r, w).

(** [try { body } catch(e) { handler }] *)
Definition try_catch {A : Type} (body : M A) (handler : value -> M A) : M A :=
  fun w =>
    match body w with
    | (Ret a, w') => (Ret a, w')
    | (Throw e, w') => handler e w'
    end.

Declare Scope js_scope.
Delimit Scope js_scope with js.
Notation "x <- m ;; k" := (bind m (fun x => k))
  (at level 100, m at next level, right associativity) : js_scope.
Notation "m ;; k" := (bind m (fun _ => k))
  (at level 100, right associativity) : js_scope.
Local Open Scope js_scope.

(** The world once a line is logged, and once a call reached the backend. *)
Definition logged (l : level) (message : string) (w : world) : world :=
  {| w_log := (w_log w ++ [(l, message)])%list; w_calls := w_calls w |}.

Definition called (c : call) (w : world) : world :=
  {| w_log := w_log w; w_calls := (w_calls w ++ [c])%list |}.

Definition logger_write (l : level) (message : string) : M unit :=
  fun w => (Ret tt, logged l message w).

(** One call on the backend; the result is what the backend passes to the
    callback it was given. *)
Definition invoke (b : Backend) (c : call) : M (list value) :=
  fun w => (Ret (b_reply b (w_calls w) c), called c w).

(** [args[i]] of a callback invocation. *)
Definition arg (i : nat) (args : list value) : value := nth i args VUndefined.

Definition fresh : world := {| w_log := []; w_calls := [] |}.

(** ** The host

    [thorin.util] and [JSON.parse] are services of the host, taken as they
    are called.  [encrypt] and [decrypt] return [false] on failure instead
    of throwing; [JSON_parse] throws on malformed text; [sha2] is the
    digest of a text, and the call of it on anything else throws (see
    [call_sha2]). *)

Record options : Type := {
  opt_secret : value;
  opt_encrypt : value;
  opt_expire : value;
  opt_logger : value
}.

Class Host : Type := {
  hmac : string -> value -> string -> string;
  compare : string -> string -> bool;
  sha2 : value -> value;
  encrypt : value -> value -> value;
  decrypt : value -> value -> value;
  JSON_parse : value -> result value
}.

(** The three adapters of [./store/*], each built from its configuration. *)
Class Stores : Type := {
  RedisStore : value -> options -> Backend;
  SqlStore : value -> options -> Backend;
  FileStore : value -> options -> Backend
}.

Definition thorin_error (code message : string) : value := VError code message.

(** What one call of [generateId] draws from outside: [uuid.v4()],
    [thorin.util.randomString(n)] and [Date.now()]. *)
Record draws : Type := {
  uuid_v4 : string;
  randomString : nat -> string;
  Date_now : Z
}.

Definition SID_SPLIT : ascii := "."%char.
Definition ENC_SPLIT : ascii := "#"%char.

(** What the store relies on from the host's primitives: a digest is
    printed in hexadecimal, so it is not empty and holds no delimiter; the
    constant-time comparison decides equality; the cipher reads hexadecimal
    text only, so it fails on a text that opens with the marker ['#']. *)
Definition digest_text `{Host} : Prop :=
  forall text secret alg,
    hmac text secret alg <> "" /\ occurrences SID_SPLIT (hmac text secret alg) = 0.

Definition compare_decides `{Host} : Prop :=
  forall a b, compare a b = true <-> a = b.

Definition cipher_reads_hex `{Host} : Prop :=
  forall text key, decrypt (VStr (String ENC_SPLIT text)) key = VBool false.

(** Modelled from the spec: [./sessionData] is not part of this file.  A
    session payload wraps the identifier, the application data and a dirty
    flag; the store reads the identifier and the data and asks whether a
    save is needed, and builds a payload bound to an identifier on read. *)
Module SessionData.

Definition instanceof (v : value) : bool :=
  match v with
  | VSession _ _ _ => true
  | _ => false
  end.

Definition getData (v : value) : value :=
  match v with
  | VSession _ data _ => data
  | _ => VUndefined
  end.

Definition id (v : value) : value :=
  match v with
  | VSession i _ _ => i
  | _ => VUndefined
  end.

Definition shouldSave (v : value) : value :=
  match v with
  | VSession _ _ dirty => VBool dirty
  | _ => VUndefined
  end.

Definition new (i data : value) : value := VSession i data false.

End SessionData.

(** ** [module.exports = function(thorin, opt)] *)

(** An instance: [this.expire] and the slot [this[store]], [null] until a
    backend is attached. *)
Record ThorinSessionStore : Type := {
  expire : value;
  store_slot : option Backend
}.

Section Factory.

Context {host : Host} {stores : Stores}.
Variable opt : options.

(** [createStore(storeObj)] *)
Definition createStore (storeObj : value) : result Backend :=
  match get_prop storeObj "type" with
  | Throw e => Throw e
  | Ret type =>
      if is_string type "redis" then Ret (RedisStore storeObj opt)
      else if is_string type "sql" then Ret (SqlStore storeObj opt)
      else if is_string type "file" then
        match get_prop storeObj "path" with
        | Throw e => Throw e
        | Ret path => Ret (FileStore path opt)
        end
      else Throw (thorin_error "PLUGIN_SESSION"
                    ("Invalid session store " ++ to_string type
                       ++ " for the session plugin."))
  end.

(** [constructor()] *)
Definition constructor : ThorinSessionStore :=
  {| expire := opt_expire opt; store_slot := None |}.

(** [set store(storeObj)] *)
Definition set_store (this : ThorinSessionStore) (storeObj : value)
  : result ThorinSessionStore :=
  match store_slot this with
  | Some _ => Ret this
  | None =>
      match createStore storeObj with
      | Throw e => Throw e
      | Ret b => Ret {| expire := expire this; store_slot := Some b |}
      end
  end.

(** [get store()] *)
Definition get_store (this : ThorinSessionStore) : value := VNull.

(** The instance after the statement [this.store = storeObj], whether the
    setter returned or threw. *)
Definition assign (this : ThorinSessionStore) (storeObj : value)
  : ThorinSessionStore :=
  match set_store this storeObj with
  | Ret this' => this'
  | Throw _ => this
  end.

(** [signId(sid)] *)
Definition signId (sid : value) : value :=
  if negb (truthy (opt_secret opt)) then sid
  else match sid with
       | VStr s =>
           let tmp := split SID_SPLIT s in
           if negb (length tmp =? 1)%nat then sid
           else
             let sign := hmac s (opt_secret opt) "sha1" in
             VStr (s ++ String SID_SPLIT "" ++ sign)
       | _ => VBool false
       end.

(** [verifySignature(sid)] *)
Definition verifySignature (sid : value) : result value :=
  if negb (truthy (opt_secret opt)) then Ret sid
  else match call_split sid SID_SPLIT with
       | Throw e => Throw e
       | Ret tmp =>
           if negb (length tmp =? 2)%nat then Ret (VBool false)
           else
             let sessId := nth 0 tmp "" in
             let sign := nth 1 tmp "" in
             let verifySign := hmac sessId (opt_secret opt) "sha1" in
             if compare verifySign sign then Ret (VStr sessId)
             else Ret (VBool false)
       end.

(** [thorin.util.sha2(text)] as a call: the hash takes text, and the host
    throws when it is handed any other value. *)
Definition call_sha2 (text : value) : result value :=
  if typeof text =? "string" then Ret (sha2 text)
  else Throw (TypeError "Not a string or buffer").

(** [getSecureSid(sid)]: the key it returns, when it returns. *)
Definition getSecureSid (sid : value) : value :=
  if negb (truthy (opt_encrypt opt)) then sid
  else sha2 sid.

(** [getSecureSid(sid)] as a call: with encryption at rest on it throws
    when the hash does, that is on an identifier that is not a string. *)
Definition call_getSecureSid (sid : value) : result value :=
  if negb (truthy (opt_encrypt opt)) then Ret sid
  else call_sha2 sid.

(** [encryptData(sid, data)].  The guard [typeof opt !== 'object' || opt ==
    null] cannot fire once [opt.encrypt] has been read: [opt] is a record. *)
Definition encryptData (sid data : value) : value :=
  if negb (truthy (opt_encrypt opt)) then data
  else
    let encrypted := encrypt data sid in
    if negb (truthy encrypted) then data
    else VStr (String ENC_SPLIT "" ++ to_string encrypted).

(** [decryptData(sid, data)] *)
Definition decryptData (sid data : value) : M value :=
  match data with
  | VStr s =>
      if negb (charAt0 s =? String ENC_SPLIT "") then ret data
      else
        let decrypted := decrypt data sid in
        if is_false decrypted then
          logger_write LWarn ("Failed to decrypt session data for sid " ++ to_string sid) ;;
          ret (VObj [])
        else
          try_catch
            (lift (JSON_parse decrypted))
            (fun _ =>
               logger_write LWarn ("Failed to parse decrypted data for sid " ++ to_string sid) ;;
               ret decrypted)
  | _ => ret data
  end.

Definition NOT_READY : value :=
  thorin_error "SESSION.NOT_READY" "Session storage is not ready.".

(** [saveSession(sessionObj, done)]; the result is the list of arguments
    [done] is called with. *)
Definition saveSession (this : ThorinSessionStore) (sessionObj : value)
  : M (list value) :=
  match store_slot this with
  | None =>
      logger_write LError "Session storage is not ready for saveSession." ;;
      ret [NOT_READY]
  | Some backend =>
      if negb (SessionData.instanceof sessionObj) then
        logger_write LError
          "saveSession(sessObj, done), sessObj must be an instance of sessionPlugin.SessionData" ;;
        ret [thorin_error "SESSION.INVALID" "Invalid session"]
      else
        let data := SessionData.getData sessionObj in
        let id := SessionData.id sessionObj in
        if negb (typeof id =? "string") || (typeof data =? "undefined") || is_nullish data
        then ret [VNull; VBool false]
        else
          let shouldSave := SessionData.shouldSave sessionObj in
          if negb (truthy shouldSave) then ret [VNull; VBool false]
          else
            key <- lift (call_getSecureSid id) ;;
            args <- invoke backend (CSave key (encryptData id data)) ;;
            let e := arg 0 args in
            if truthy e then ret [e] else ret [VNull; VBool true]
  end.

(** [destroySession(id, done)]: [done] is handed to the backend as it is. *)
Definition destroySession (this : ThorinSessionStore) (id : value)
  : M (list value) :=
  match store_slot this with
  | None =>
      logger_write LError "Session storage is not ready for destroySession." ;;
      ret [NOT_READY]
  | Some backend =>
      let id := if SessionData.instanceof id then SessionData.id id else id in
      key <- lift (call_getSecureSid id) ;;
      invoke backend (CDestroy key)
  end.

(** [readSession(id, done, shouldBuildObject)] *)
Definition readSession (this : ThorinSessionStore) (id shouldBuildObject : value)
  : M (list value) :=
  match store_slot this with
  | None =>
      logger_write LError "Session storage is not ready for readSession." ;;
      ret [NOT_READY]
  | Some backend =>
      let id := if SessionData.instanceof id then SessionData.id id else id in
      key <- lift (call_getSecureSid id) ;;
      args <- invoke backend (CRead key) ;;
      let e := arg 0 args in
      if truthy e then ret [e]
      else
        data <- decryptData id (arg 1 args) ;;
        let res := if truthy data && negb (is_false shouldBuildObject)
                   then SessionData.new id data
                   else data in
        ret [VNull; res]
  end.

(** [generateId()] *)
Definition generateId (d : draws) : result value :=
  let id := remove_all "-"%char (uuid_v4 d) in
  let rand := randomString d 8 in
  let hash := sha2 (VStr (id ++ "" ++ string_of_Z (Date_now d))) in
  match call_substr hash 0 8 with
  | Throw e => Throw e
  | Ret hash => Ret (VStr (rand ++ id ++ hash))
  end.

End Factory.

(** The backend a run of assignments should end with: the one built from
    the first configuration [createStore] accepts. *)
Fixpoint first_accepted `{Stores} (opt : options) (cfgs : list value)
  : option Backend :=
  match cfgs with
  | [] => None
  | cfg :: rest =>
      match createStore opt cfg with
      | Ret b => Some b
      | Throw _ => first_accepted opt rest
      end
  end.


(** The two lines [decryptData] may log. *)
Definition decrypt_warning (sid : value) : string :=
  "Failed to decrypt session data for sid " ++ to_string sid.

Definition parse_warning (sid : value) : string :=
  "Failed to parse decrypted data for sid " ++ to_string sid.

(** ** A reference host

    A small executable host on which the store can be run: digests are
    keyed checksums printed in hexadecimal, the cipher masks the
    serialized payload, padded with one byte, with a byte derived from the
    key and prints the result in hexadecimal, and it refuses, like the
    host's, any text that is not hexadecimal or does not end in the
    padding once unmasked. *)

Module Reference.

Definition hex_digit (n : nat) : ascii :=
  match get n "0123456789abcdef" with
  | Some c => c
  | None => "0"%char
  end.

Definition hex_byte (c : ascii) : string :=
  let n := nat_of_ascii c in
  String (hex_digit (n / 16)) (String (hex_digit (n mod 16)) "").

Fixpoint hex_of_string (s : string) : string :=
  match s with
  | EmptyString => ""
  | String c rest => hex_byte c ++ hex_of_string rest
  end.

Definition digit_of_hex (c : ascii) : option nat :=
  let n := nat_of_ascii c in
  if (48 <=? n)%nat && (n <=? 57)%nat then Some (n - 48)
  else if (97 <=? n)%nat && (n <=? 102)%nat then Some (n - 87)
  else None.

Fixpoint string_of_hex (s : string) : option string :=
  match s with
  | EmptyString => Some ""
  | String a (String b rest) =>
      match digit_of_hex a, digit_of_hex b, string_of_hex rest with
      | Some h, Some l, Some t => Some (String (ascii_of_nat (16 * h + l)) t)
      | _, _, _ => None
      end
  | String _ EmptyString => None
  end.

Fixpoint checksum (acc : N) (s : string) : N :=
  match s with
  | EmptyString => acc
  | String c rest => checksum ((acc * 31 + N_of_ascii c) mod 65536) rest
  end.

Definition digest (n : N) : string :=
  hex_of_string (String (ascii_of_N (n / 256)) (String (ascii_of_N (n mod 256)) "")).

Definition mask (k : ascii) (s : string) : string :=
  let xor c := ascii_of_N (N.lxor (N_of_ascii c) (N_of_ascii k)) in
  (fix go (s : string) : string :=
     match s with
     | EmptyString => ""
     | String c rest => String (xor c) (go rest)
     end) s.

Definition key_byte (k : string) : ascii := ascii_of_N (checksum 5 k mod 256).

(** The byte the cipher pads the plain text with. *)
Definition pad : ascii := ascii_of_nat 1.

Fixpoint last_byte (s : string) : option (string * ascii) :=
  match s with
  | EmptyString => None
  | String c rest =>
      match last_byte rest with
      | None => Some ("", c)
      | Some (init, l) => Some (String c init, l)
      end
  end.

Definition quote : string := String (ascii_of_nat 34) "".

(** [JSON.stringify], without escapes in strings. *)
Fixpoint stringify (v : value) : string :=
  match v with
  | VUndefined | VNull => "null"
  | VBool _ | VNum _ => to_string v
  | VStr s | VStringObject s => quote ++ s ++ quote
  | VArr items =>
      "[" ++ (fix join (l : list value) : string :=
                match l with
                | [] => ""
                | x :: rest =>
                    match rest with
                    | [] => stringify x
                    | _ :: _ => stringify x ++ "," ++ join rest
                    end
                end) items ++ "]"
  | VObj fields =>
      "{" ++ (fix join (l : list (string * value)) : string :=
                match l with
                | [] => ""
                | (k, x) :: rest =>
                    let field := quote ++ k ++ quote ++ ":" ++ stringify x in
                    match rest with
                    | [] => field
                    | _ :: _ => field ++ "," ++ join rest
                    end
                end) fields ++ "}"
  | VError _ message => "{" ++ quote ++ "message" ++ quote ++ ":" ++ quote ++ message ++ quote ++ "}"
  | VSession _ _ _ => "{}"
  end.

Definition ref_encrypt (data key : value) : value :=
  match key with
  | VStr k =>
      let plain := match data with
                   | VStr s => Some s
                   | VUndefined | VNull => None
                   | VBool _ | VNum _ => Some (to_string data)
                   | _ => Some (stringify data)
                   end in
      match plain with
      | None => VBool false
      | Some p => VStr (hex_of_string (mask (key_byte k) (p ++ String pad "")))
      end
  | _ => VBool false
  end.

Definition ref_decrypt (data key : value) : value :=
  match data, key with
  | VStr d, VStr k =>
      if (d =? "") || (k =? "") then VBool false
      else match string_of_hex d with
           | None => VBool false
           | Some bytes =>
               match last_byte (mask (key_byte k) bytes) with
               | Some (plain, check) =>
                   if Ascii.eqb check pad then VStr plain else VBool false
               | None => VBool false
               end
           end
  | _, _ => VBool false
  end.

(** [JSON.parse] on the literals and on flat text; anything else is a
    syntax error. *)
Definition ref_parse (v : value) : result value :=
  let text := to_string v in
  if text =? "null" then Ret VNull
  else if text =? "true" then Ret (VBool true)
  else if text =? "false" then Ret (VBool false)
  else if text =? "{}" then Ret (VObj [])
  else if text =? "[]" then Ret (VArr [])
  else Throw (VError "SyntaxError" "Unexpected token in JSON").

#[export] Instance ref_host : Host := {|
  hmac text secret alg := digest (checksum (checksum (checksum 7 alg) (to_string secret)) text);
  compare a b := a =? b;
  sha2 text := VStr (digest (checksum 11 (to_string text)));
  encrypt := ref_encrypt;
  decrypt := ref_decrypt;
  JSON_parse := ref_parse
|}.

(** A host whose cipher skips the marker in front of the text it reads. *)
Definition skip_marker (data : value) : value :=
  match data with
  | VStr (String c text) => if Ascii.eqb c "#"%char then VStr text else data
  | _ => data
  end.

Definition lenient_host : Host := {|
  hmac := @hmac ref_host;
  compare := @compare ref_host;
  sha2 := @sha2 ref_host;
  encrypt := ref_encrypt;
  decrypt data key := ref_decrypt (skip_marker data) key;
  JSON_parse := ref_parse
|}.

Definition memory_backend (type : string) : Backend :=
  {| b_type := type;
     b_reply history c :=
       match c with
       | CSave _ _ => []
       | CDestroy _ => []
       | CRead key =>
           [VNull;
            fold_left (fun found past =>
                         match past with
                         | CSave k d => if to_string k =? to_string key then d else found
                         | CDestroy k => if to_string k =? to_string key then VNull else found
                         | CRead _ => found
                         end) history VNull]
       end |}.

#[export] Instance ref_stores : Stores := {|
  RedisStore _ _ := memory_backend "redis";
  SqlStore _ _ := memory_backend "sql";
  FileStore _ _ := memory_backend "file"
|}.

(** An instance with a backend attached. *)
Definition ready : ThorinSessionStore :=
  {| expire := VNum 3600; store_slot := Some (memory_backend "redis") |}.

Definition signing : options :=
  {| opt_secret := VStr "s"; opt_encrypt := VUndefined;
     opt_expire := VNum 3600; opt_logger := VUndefined |}.

Definition encrypting : options :=
  {| opt_secret := VStr "s"; opt_encrypt := VBool true;
     opt_expire := VNum 3600; opt_logger := VUndefined |}.

Definition plain : options :=
  {| opt_secret := VUndefined; opt_encrypt := VUndefined;
     opt_expire := VNum 3600; opt_logger := VUndefined |}.

(** A host whose [sha2] prints eight bytes, and one set of draws. *)
Definition wide_host : Host := {|
  hmac := @hmac ref_host;
  compare := @compare ref_host;
  sha2 text :=
    VStr (digest (checksum 11 (to_string text)) ++ digest (checksum 13 (to_string text))
            ++ digest (checksum 17 (to_string text)) ++ digest (checksum 19 (to_string text)));
  encrypt := ref_encrypt;
  decrypt := ref_decrypt;
  JSON_parse := ref_parse
|}.

Definition sample_draws : draws :=
  {| uuid_v4 := "110ec58a-a0f2-4ac4-8393-c866d813b8d1";
     randomString n := substring 0 n "Zk3pQ9xWv1Lm7RtY";
     Date_now := 1460100000000 |}.

End Reference.

(** * Properties *)

Import Reference.

(** ** Splitting on the delimiter *)

Example split_plain : split "." "abc" = ["abc"].
Proof. reflexivity. Qed.
Example split_signed : split "." "abc.0f" = ["abc"; "0f"].
Proof. reflexivity. Qed.
Example split_edges : split "." ".a." = [""; "a"; ""].
Proof. reflexivity. Qed.
Example to_string_arr : to_string (VArr [VNum 1; VNull; VStr "x"]) = "1,,x".
Proof. reflexivity. Qed.

Section Split.

Variable sep : ascii.

Lemma split_not_nil (s : string) : split sep s <> [].
Proof.
  destruct s as [|c s]; simpl; [discriminate|].
  destruct (Ascii.eqb c sep); [discriminate|].
  destruct (split sep s); discriminate.
Qed.

Lemma split_length (s : string) :
  length (split sep s) = S (occurrences sep s).
Proof.
  induction s as [|c s IH]; simpl; [reflexivity|].
  destruct (Ascii.eqb c sep); simpl.
  - now rewrite IH.
  - destruct (split sep s) eqn:E; simpl in *; [discriminate | exact IH].
Qed.

Lemma split_whole (s : string) :
  occurrences sep s = 0 -> split sep s = [s].
Proof.
  induction s as [|c s IH]; simpl; [reflexivity|].
  destruct (Ascii.eqb c sep); simpl; [discriminate|].
  intros H. now rewrite (IH H).
Qed.

Lemma split_first (a b : string) :
  occurrences sep a = 0 ->
  split sep (a ++ String sep b) = a :: split sep b.
Proof.
  induction a as [|c a IH]; simpl.
  - now rewrite Ascii.eqb_refl.
  - destruct (Ascii.eqb c sep); simpl; [discriminate|].
    intros H. now rewrite (IH H).
Qed.

Lemma split_pair (a b : string) :
  occurrences sep a = 0 -> occurrences sep b = 0 ->
  split sep (a ++ String sep b) = [a; b].
Proof.
  intros Ha Hb. now rewrite split_first, (split_whole b).
Qed.

Lemma occurrences_app (a b : string) :
  occurrences sep (a ++ b) = occurrences sep a + occurrences sep b.
Proof.
  induction a as [|c a IH]; simpl; [reflexivity|]. rewrite IH. lia.
Qed.

(** [s.split(sep).join(sep)] is [s]. *)
Lemma join_split (s : string) : join sep (split sep s) = s.
Proof.
  induction s as [|c s IH]; simpl; [reflexivity|].
  destruct (Ascii.eqb_spec c sep) as [->|_].
  - destruct (split sep s) eqn:F; [now apply split_not_nil in F|].
    cbn [join] in *. now rewrite IH.
  - destruct (split sep s) as [|x [|y l]] eqn:F;
      [now apply split_not_nil in F| |]; cbn [join] in *; simpl; now rewrite IH.
Qed.

Lemma split_two_inv (s a b : string) :
  split sep s = [a; b] -> s = a ++ String sep b.
Proof.
  intros E. rewrite <- (join_split s), E. reflexivity.
Qed.

End Split.

(** ** The reference host meets the contracts *)

Lemma hex_byte_plain (c : ascii) :
  occurrences "."%char (hex_byte c) = 0 /\ hex_byte c <> "".
Proof.
  split; [|discriminate].
  destruct c as [[] [] [] [] [] [] [] []]; reflexivity.
Qed.

Lemma digest_plain (n : N) :
  digest n <> "" /\ occurrences "."%char (digest n) = 0.
Proof.
  unfold digest. cbn [hex_of_string].
  set (a := ascii_of_N (n / 256)). set (b := ascii_of_N (n mod 256)).
  split.
  - unfold hex_byte. discriminate.
  - destruct (hex_byte_plain a) as [Ha _], (hex_byte_plain b) as [Hb _].
    unfold hex_byte in *. cbn in *. lia.
Qed.

Lemma ref_digest_text : digest_text.
Proof. intros text secret alg. apply digest_plain. Qed.

Lemma ref_compare_decides : compare_decides.
Proof. intros a b. apply String.eqb_eq. Qed.

Lemma ref_cipher_reads_hex : cipher_reads_hex.
Proof.
  intros text key. unfold decrypt, ref_host, ref_decrypt.
  destruct key as [| | | |k| | | | |]; try reflexivity.
  destruct (k =? ""); [reflexivity|].
  destruct text; reflexivity.
Qed.

(** ** Signing and verifying *)

Section Signature.

Context {host : Host}.
Variable opt : options.

Lemma signId_disabled (x : value) :
  truthy (opt_secret opt) = false -> signId opt x = x.
Proof. unfold signId. now intros ->. Qed.

Lemma verifySignature_disabled (x : value) :
  truthy (opt_secret opt) = false -> verifySignature opt x = Ret x.
Proof. unfold verifySignature. now intros ->. Qed.

Lemma signId_raw (x : string) :
  truthy (opt_secret opt) = true -> occurrences SID_SPLIT x = 0 ->
  signId opt (VStr x) = VStr (x ++ String SID_SPLIT (hmac x (opt_secret opt) "sha1")).
Proof.
  intros Hs Hx. unfold signId. rewrite Hs. cbn [negb].
  now rewrite split_length, Hx.
Qed.

Lemma verifySignature_string (s : string) :
  truthy (opt_secret opt) = true ->
  verifySignature opt (VStr s) =
    let tmp := split SID_SPLIT s in
    if (length tmp =? 2)%nat
    then if compare (hmac (nth 0 tmp "") (opt_secret opt) "sha1") (nth 1 tmp "")
         then Ret (VStr (nth 0 tmp ""))
         else Ret (VBool false)
    else Ret (VBool false).
Proof.
  intros Hs. unfold verifySignature. rewrite Hs. cbn [negb call_split].
  cbv zeta. now destruct (length (split SID_SPLIT s) =? 2)%nat.
Qed.

Lemma verifySignature_pair (a b : string) :
  truthy (opt_secret opt) = true ->
  occurrences SID_SPLIT a = 0 -> occurrences SID_SPLIT b = 0 ->
  verifySignature opt (VStr (a ++ String SID_SPLIT b)) =
    if compare (hmac a (opt_secret opt) "sha1") b then Ret (VStr a) else Ret (VBool false).
Proof.
  intros Hs Ha Hb. rewrite verifySignature_string by assumption.
  now rewrite split_pair.
Qed.

Lemma verifySignature_shape (s : string) :
  truthy (opt_secret opt) = true ->
  length (split SID_SPLIT s) <> 2 ->
  verifySignature opt (VStr s) = Ret (VBool false).
Proof.
  intros Hs Hn. rewrite verifySignature_string by assumption. cbv zeta.
  now apply Nat.eqb_neq in Hn as ->.
Qed.

(** A value without the methods of a string has no callable [split]. *)
Lemma call_split_throws (v : value) :
  has_string_methods v = false -> exists e, call_split v SID_SPLIT = Throw e.
Proof.
  destruct v; cbn; intros H; try (eexists; reflexivity); discriminate.
Qed.

End Signature.

(** C3. With a secret configured, signing a raw identifier [x] that holds no
    delimiter appends ['.'] and the HMAC-SHA1 of [x] under the secret, and
    verifying the signed identifier returns [x].  It does so by
    recomputing and comparing: on [x], the delimiter and any second
    segment, [verifySignature] returns [x] when [compare] matches the
    recomputed digest of [x] with that segment and [false] when it does
    not, and [false] when what follows the delimiter holds a delimiter
    too. *)
Theorem verify_sign_roundtrip `{Host} (opt : options) (x : string) :
  truthy (opt_secret opt) = true ->
  digest_text -> compare_decides ->
  occurrences SID_SPLIT x = 0 ->
  signId opt (VStr x) = VStr (x ++ "." ++ hmac x (opt_secret opt) "sha1") /\
  verifySignature opt (signId opt (VStr x)) = Ret (VStr x) /\
  (forall sign, occurrences SID_SPLIT sign = 0 ->
     verifySignature opt (VStr (x ++ "." ++ sign)) =
       if compare (hmac x (opt_secret opt) "sha1") sign
       then Ret (VStr x) else Ret (VBool false)) /\
  (forall sign, occurrences SID_SPLIT sign <> 0 ->
     verifySignature opt (VStr (x ++ "." ++ sign)) = Ret (VBool false)).
Proof.
  intros Hs Hd Hc Hx.
  rewrite signId_raw by assumption. split; [reflexivity|]. split; [|split].
  - rewrite verifySignature_pair; try assumption.
    + now rewrite (proj2 (Hc _ _) eq_refl).
    + apply Hd.
  - intros sign Hn. now apply verifySignature_pair.
  - intros sign Hn. apply verifySignature_shape; [assumption|].
    rewrite split_length, occurrences_app. simpl. lia.
Qed.

Lemma verify_sign_roundtrip_witness :
  signId signing (VStr "abc") = VStr "abc.969b" /\
  verifySignature signing (signId signing (VStr "abc")) = Ret (VStr "abc") /\
  verifySignature signing (VStr "abc.969c") = Ret (VBool false) /\
  verifySignature signing (VStr "abc.96.9b") = Ret (VBool false).
Proof.
  destruct (verify_sign_roundtrip signing "abc" eq_refl
              ref_digest_text ref_compare_decides eq_refl) as (S & V & C & D).
  split; [exact S | split; [exact V | split]].
  - exact (C "969c" eq_refl).
  - apply (D "96.9b"). discriminate.
Defined.

(** C4. With no secret configured, [signId] and [verifySignature] hand back
    their argument, whatever it is: no type check, no look at the delimiter. *)
Theorem signing_disabled_passthrough `{Host} (opt : options) (x : value) :
  truthy (opt_secret opt) = false ->
  signId opt x = x /\ verifySignature opt x = Ret x.
Proof.
  intros Hs. split.
  - now apply signId_disabled.
  - now apply verifySignature_disabled.
Qed.

Lemma signing_disabled_passthrough_witness :
  signId plain (VArr [VStr "a.b.c"; VNull]) = VArr [VStr "a.b.c"; VNull] /\
  verifySignature plain (VArr [VStr "a.b.c"; VNull]) = Ret (VArr [VStr "a.b.c"; VNull]).
Proof.
  exact (signing_disabled_passthrough plain (VArr [VStr "a.b.c"; VNull]) eq_refl).
Defined.

(** C9, the claim as stated fails: a [String] object is not a string
    ([typeof] gives ['object'], and [signId] answers [false]), yet it
    carries [split], so [verifySignature] does not throw on it and verifies
    it like the text it wraps. *)
Lemma string_object_is_verified :
  typeof (VStringObject "abc.969b") = "object" /\
  verifySignature signing (VStringObject "abc.969b") = Ret (VStr "abc") /\
  signId signing (VStringObject "abc.969b") = VBool false.
Proof. split; [reflexivity | split; reflexivity]. Qed.

(** C9, amended. With a secret configured, on every argument that is not
    a string [signId] returns [false], and [verifySignature] throws when
    the argument has no callable [split] (the call is unguarded): that is
    every such argument but a [String] object, which is verified like the
    text it wraps. *)
Theorem verify_throws_on_non_string `{Host} (opt : options) (sid : value) :
  truthy (opt_secret opt) = true ->
  typeof sid <> "string" ->
  signId opt sid = VBool false /\
  (has_string_methods sid = false -> exists e, verifySignature opt sid = Throw e) /\
  (forall s, sid = VStringObject s ->
     verifySignature opt sid = verifySignature opt (VStr s)).
Proof.
  intros Hs Ht. split; [|split].
  - unfold signId. rewrite Hs. cbn [negb].
    destruct sid; try reflexivity. now contradiction Ht.
  - intros Hm. unfold verifySignature. rewrite Hs. cbn [negb].
    destruct (call_split_throws sid Hm) as [e ->]. now exists e.
  - intros s E. subst sid. unfold verifySignature, call_split. now rewrite Hs.
Qed.

Lemma verify_throws_on_non_string_witness :
  signId signing (VNum 5) = VBool false /\
  (exists e, verifySignature signing (VNum 5) = Throw e) /\
  verifySignature signing (VStringObject "abc.969c") = Ret (VBool false).
Proof.
  split; [|split].
  - apply (verify_throws_on_non_string signing (VNum 5) eq_refl). discriminate.
  - apply (verify_throws_on_non_string signing (VNum 5) eq_refl);
      [discriminate | reflexivity].
  - rewrite (proj2 (proj2 (verify_throws_on_non_string signing
               (VStringObject "abc.969c") eq_refl ltac:(discriminate)))
               "abc.969c" eq_refl).
    reflexivity.
Defined.

(** C2, the claim as stated fails: a candidate whose first segment is empty
    and whose second segment is the digest of the empty text splits into
    two segments, one of them empty, and is not answered with [false]. *)
Lemma empty_first_segment_not_rejected :
  split SID_SPLIT ".3467" = [""; "3467"] /\
  verifySignature signing (VStr ".3467") = Ret (VStr "") /\
  Ret (VStr "") <> Ret (VBool false).
Proof. split; [reflexivity | split; [reflexivity | discriminate]]. Qed.

(** C2, amended. With a secret configured, [verifySignature] answers
    [false] to every candidate that does not split into exactly two
    segments and to every candidate whose segment after the delimiter is
    empty; whatever it accepts is the first segment of a candidate made of
    that segment, the delimiter and its digest.  An empty first segment is
    not refused as such: the delimiter followed by the digest of the empty
    text is answered with the empty string. *)
Theorem verify_rejects_malformed `{Host} (opt : options) (s : string) :
  truthy (opt_secret opt) = true ->
  digest_text -> compare_decides ->
  (length (split SID_SPLIT s) <> 2 ->
   verifySignature opt (VStr s) = Ret (VBool false)) /\
  (forall a, s = a ++ "." -> verifySignature opt (VStr s) = Ret (VBool false)) /\
  (forall v, verifySignature opt (VStr s) = Ret v ->
     v = VBool false \/
     exists a, v = VStr a /\ s = a ++ "." ++ hmac a (opt_secret opt) "sha1") /\
  verifySignature opt (VStr ("." ++ hmac "" (opt_secret opt) "sha1")) = Ret (VStr "").
Proof.
  intros Hs Hd Hc. split; [|split; [|split]].
  - now apply verifySignature_shape.
  - intros a ->.
    destruct (Nat.eq_dec (occurrences SID_SPLIT a) 0) as [Ha|Ha].
    + change (a ++ ".") with (a ++ String SID_SPLIT "").
      rewrite verifySignature_pair by (assumption || reflexivity).
      destruct (compare _ "") eqn:E; [|reflexivity].
      apply Hc in E. now destruct (Hd a (opt_secret opt) "sha1").
    + apply verifySignature_shape; [assumption|].
      rewrite split_length, occurrences_app. simpl. lia.
  - intros v. rewrite verifySignature_string by assumption. cbv zeta.
    destruct (length (split SID_SPLIT s) =? 2)%nat eqn:L;
      [|intros E; injection E as <-; now left].
    apply Nat.eqb_eq in L.
    destruct (split SID_SPLIT s) as [|a [|b [|c l]]] eqn:F; try discriminate.
    cbn [nth]. destruct (compare _ b) eqn:E; intros R; injection R as <-;
      [right | now left].
    exists a. split; [reflexivity|].
    apply Hc in E. subst b. now apply split_two_inv.
  - change ("." ++ hmac "" (opt_secret opt) "sha1")
      with ("" ++ String SID_SPLIT (hmac "" (opt_secret opt) "sha1")).
    rewrite verifySignature_pair; try assumption; try reflexivity.
    + now rewrite (proj2 (Hc _ _) eq_refl).
    + apply Hd.
Qed.

Lemma verify_rejects_malformed_witness :
  verifySignature signing (VStr "a.b.c") = Ret (VBool false) /\
  verifySignature signing (VStr "abc.") = Ret (VBool false) /\
  verifySignature signing (VStr ".3467") = Ret (VStr "").
Proof.
  split; [|split].
  - apply (verify_rejects_malformed signing "a.b.c" eq_refl
             ref_digest_text ref_compare_decides).
    discriminate.
  - apply (proj1 (proj2 (verify_rejects_malformed signing "abc." eq_refl
                           ref_digest_text ref_compare_decides)) "abc").
    reflexivity.
  - apply (verify_rejects_malformed signing "" eq_refl
             ref_digest_text ref_compare_decides).
Defined.

(** ** The payload cipher *)

Section Cipher.

Context {host : Host}.

Lemma decryptData_not_string (sid data : value) (w : world) :
  typeof data <> "string" -> decryptData sid data w = (Ret data, w).
Proof.
  destruct data; intros Ht; try reflexivity. now contradiction Ht.
Qed.

Lemma decryptData_unmarked (sid : value) (s : string) (w : world) :
  charAt0 s <> String ENC_SPLIT "" ->
  decryptData sid (VStr s) w = (Ret (VStr s), w).
Proof.
  intros Hc. unfold decryptData.
  now apply String.eqb_neq in Hc as ->.
Qed.

(** On a record that opens with the marker the whole record, marker
    included, is handed to [decrypt] with the identifier as key. *)
Lemma decryptData_marked (sid : value) (text : string) (w : world) :
  decryptData sid (VStr (String ENC_SPLIT text)) w =
    if is_false (decrypt (VStr (String ENC_SPLIT text)) sid)
    then (Ret (VObj []), logged LWarn (decrypt_warning sid) w)
    else match JSON_parse (decrypt (VStr (String ENC_SPLIT text)) sid) with
         | Ret v => (Ret v, w)
         | Throw _ =>
             (Ret (decrypt (VStr (String ENC_SPLIT text)) sid),
              logged LWarn (parse_warning sid) w)
         end.
Proof.
  unfold decryptData. cbn [charAt0]. rewrite String.eqb_refl. cbn [negb].
  destruct (is_false _); [reflexivity|].
  unfold try_catch, lift. now destruct (JSON_parse _).
Qed.

(** [decryptData] returns, and leaves the backend alone. *)
Lemma decryptData_returns (sid data : value) (w : world) :
  exists v w', decryptData sid data w = (Ret v, w') /\ w_calls w' = w_calls w.
Proof.
  destruct data as [| | | |s| | | | |]; try (eexists; eexists; split; reflexivity).
  destruct (String.eqb_spec (charAt0 s) (String ENC_SPLIT "")) as [E|E].
  - destruct s as [|c s]; [discriminate|]. injection E as ->.
    rewrite decryptData_marked.
    destruct (is_false _); [eexists; eexists; split; reflexivity|].
    destruct (JSON_parse _); eexists; eexists; split; reflexivity.
  - rewrite decryptData_unmarked by assumption.
    eexists; eexists; split; reflexivity.
Qed.

Lemma encryptData_enabled (opt : options) (sid data : value) :
  truthy (opt_encrypt opt) = true -> truthy (encrypt data sid) = true ->
  encryptData opt sid data = VStr (String ENC_SPLIT (to_string (encrypt data sid))).
Proof. intros He Hc. unfold encryptData. now rewrite He, Hc. Qed.

End Cipher.

(** C1. With encryption at rest enabled, [encryptData] puts the marker ['#']
    in front of the cipher text; [decryptData] hands the record to the
    cipher with the marker still on it, and a cipher that reads hexadecimal
    text fails there: what comes back is the empty object and a warning,
    not the data that went in. *)
Theorem encrypted_record_not_recovered `{Host}
    (opt : options) (sid data : value) (w : world) :
  truthy (opt_encrypt opt) = true ->
  truthy (encrypt data sid) = true ->
  cipher_reads_hex ->
  encryptData opt sid data = VStr (String ENC_SPLIT (to_string (encrypt data sid))) /\
  decryptData sid (encryptData opt sid data) w =
    (Ret (VObj []), logged LWarn (decrypt_warning sid) w).
Proof.
  intros He Hc Hx. rewrite encryptData_enabled by assumption.
  split; [reflexivity|].
  rewrite decryptData_marked. unfold cipher_reads_hex, ENC_SPLIT in *.
  now rewrite Hx.
Qed.

Lemma encrypted_record_not_recovered_witness :
  (encryptData encrypting (VStr "abc") (VObj [("a", VNum 1)]) = VStr "#461f5c1f070c403c" /\
   decryptData (VStr "abc") (encryptData encrypting (VStr "abc") (VObj [("a", VNum 1)])) fresh =
     (Ret (VObj []), logged LWarn "Failed to decrypt session data for sid abc" fresh)) /\
  VObj [] <> VObj [("a", VNum 1)] /\
  decrypt (VStr "461f5c1f070c403c") (VStr "abc") = VStr (stringify (VObj [("a", VNum 1)])).
Proof.
  split; [|split; [discriminate | vm_compute; reflexivity]].
  exact (encrypted_record_not_recovered encrypting (VStr "abc") (VObj [("a", VNum 1)])
           fresh eq_refl eq_refl ref_cipher_reads_hex).
Defined.

(** C5. [decryptData] never throws and never calls the backend.  A value
    that is not a string, and a string that does not open with ['#'], come
    back unchanged.  On a string that opens with ['#']: when the cipher
    fails the result is the empty object; when it succeeds and
    [JSON.parse] throws, the result is the decrypted text as it is; when
    both succeed, the parsed value. *)
Theorem decryptData_never_throws `{Host} (sid data : value) (w : world) :
  (exists v w', decryptData sid data w = (Ret v, w') /\ w_calls w' = w_calls w) /\
  (typeof data <> "string" -> decryptData sid data w = (Ret data, w)) /\
  (forall s, data = VStr s -> charAt0 s <> "#" ->
     decryptData sid data w = (Ret data, w)) /\
  (forall s, data = VStr s -> charAt0 s = "#" ->
     (decrypt data sid = VBool false ->
      decryptData sid data w = (Ret (VObj []), logged LWarn (decrypt_warning sid) w)) /\
     (decrypt data sid <> VBool false ->
      forall e, JSON_parse (decrypt data sid) = Throw e ->
      decryptData sid data w =
        (Ret (decrypt data sid), logged LWarn (parse_warning sid) w)) /\
     (decrypt data sid <> VBool false ->
      forall v, JSON_parse (decrypt data sid) = Ret v ->
      decryptData sid data w = (Ret v, w))).
Proof.
  assert (F : forall d, d <> VBool false -> is_false d = false).
  { intros d Hd. destruct d as [| |[]| | | | | | |]; try reflexivity. now contradiction Hd. }
  assert (Marked : forall s, charAt0 s = "#" -> exists text, s = String ENC_SPLIT text).
  { intros [|c s] E; [discriminate|]. injection E as ->. now exists s. }
  split; [|split; [|split]].
  - apply decryptData_returns.
  - apply decryptData_not_string.
  - intros s -> Hc. now apply decryptData_unmarked.
  - intros s -> Hc. destruct (Marked s Hc) as [text ->].
    rewrite decryptData_marked. split; [|split].
    + now intros ->.
    + intros Hd e He. now rewrite (F _ Hd), He.
    + intros Hd v Hv. now rewrite (F _ Hd), Hv.
Qed.

Lemma decryptData_never_throws_witness :
  decryptData (VStr "abc") (VNum 1) fresh = (Ret (VNum 1), fresh) /\
  decryptData (VStr "abc") (VStr "{}") fresh = (Ret (VStr "{}"), fresh) /\
  decryptData (VStr "abc") (VStr "#461f5c1f070c403c") fresh =
    (Ret (VObj []), logged LWarn (decrypt_warning (VStr "abc")) fresh) /\
  @decryptData lenient_host (VStr "abc") (VStr "#461f5c1f070c403c") fresh =
    (Ret (VStr (stringify (VObj [("a", VNum 1)]))),
     logged LWarn (parse_warning (VStr "abc")) fresh) /\
  @decryptData lenient_host (VStr "abc") (VStr "#46403c") fresh = (Ret (VObj []), fresh).
Proof.
  split; [|split; [|split; [|split]]].
  - apply (decryptData_never_throws (VStr "abc") (VNum 1) fresh). discriminate.
  - apply (proj1 (proj2 (proj2
             (decryptData_never_throws (VStr "abc") (VStr "{}") fresh))) "{}");
      [reflexivity | discriminate].
  - apply (proj2 (proj2 (proj2
             (decryptData_never_throws (VStr "abc") (VStr "#461f5c1f070c403c") fresh)))
             "#461f5c1f070c403c" eq_refl eq_refl).
    reflexivity.
  - apply (proj1 (proj2 (proj2 (proj2 (proj2
             (@decryptData_never_throws lenient_host
                (VStr "abc") (VStr "#461f5c1f070c403c") fresh)))
             "#461f5c1f070c403c" eq_refl eq_refl))
             ltac:(vm_compute; discriminate)
             (VError "SyntaxError" "Unexpected token in JSON")).
    vm_compute. reflexivity.
  - apply (proj2 (proj2 (proj2 (proj2 (proj2
             (@decryptData_never_throws lenient_host
                (VStr "abc") (VStr "#46403c") fresh)))
             "#46403c" eq_refl eq_refl))
             ltac:(vm_compute; discriminate) (VObj [])).
    vm_compute. reflexivity.
Defined.

(** ** Save, read, destroy *)

Section Orchestrator.

Context {host : Host}.
Variable opt : options.
Variable this : ThorinSessionStore.

Lemma getSecureSid_cases (sid : value) :
  getSecureSid opt sid = if truthy (opt_encrypt opt) then sha2 sid else sid.
Proof. unfold getSecureSid. now destruct (truthy (opt_encrypt opt)). Qed.

(** The call returns the key when encryption at rest is off or the
    identifier is a string, and throws otherwise. *)
Lemma call_getSecureSid_returns (sid : value) :
  truthy (opt_encrypt opt) = false \/ typeof sid = "string" ->
  call_getSecureSid opt sid = Ret (getSecureSid opt sid).
Proof.
  unfold call_getSecureSid, getSecureSid, call_sha2.
  destruct (truthy (opt_encrypt opt)); [|reflexivity].
  intros [E|E]; [discriminate | now rewrite E].
Qed.


Lemma saveSession_not_ready (sessionObj : value) (w : world) :
  store_slot this = None ->
  saveSession opt this sessionObj w =
    (Ret [NOT_READY], logged LError "Session storage is not ready for saveSession." w).
Proof. unfold saveSession. now intros ->. Qed.

Lemma readSession_not_ready (id build : value) (w : world) :
  store_slot this = None ->
  readSession opt this id build w =
    (Ret [NOT_READY], logged LError "Session storage is not ready for readSession." w).
Proof. unfold readSession. now intros ->. Qed.

Lemma destroySession_not_ready (id : value) (w : world) :
  store_slot this = None ->
  destroySession opt this id w =
    (Ret [NOT_READY], logged LError "Session storage is not ready for destroySession." w).
Proof. unfold destroySession. now intros ->. Qed.

Variable backend : Backend.
Hypothesis attached : store_slot this = Some backend.

Lemma saveSession_invalid (sessionObj : value) (w : world) :
  SessionData.instanceof sessionObj = false ->
  saveSession opt this sessionObj w =
    (Ret [thorin_error "SESSION.INVALID" "Invalid session"],
     logged LError
       "saveSession(sessObj, done), sessObj must be an instance of sessionPlugin.SessionData"
       w).
Proof. unfold saveSession. rewrite attached. now intros ->. Qed.

Lemma saveSession_skipped (id data : value) (dirty : bool) (w : world) :
  typeof id <> "string" \/ is_nullish data = true \/ dirty = false ->
  saveSession opt this (VSession id data dirty) w = (Ret [VNull; VBool false], w).
Proof.
  intros Hc. unfold saveSession. rewrite attached. cbn.
  destruct (String.eqb_spec (typeof id) "string") as [E|E]; cbn; [|reflexivity].
  destruct Hc as [Hc|[Hc|Hc]]; [now contradiction Hc | |].
  - rewrite Hc, orb_true_r. reflexivity.
  - subst dirty. now destruct (_ || _).
Qed.

Lemma saveSession_written (id data : value) (w : world) :
  typeof id = "string" -> is_nullish data = false ->
  saveSession opt this (VSession id data true) w =
    (Ret (let e := arg 0 (b_reply backend (w_calls w)
                            (CSave (getSecureSid opt id) (encryptData opt id data))) in
          if truthy e then [e] else [VNull; VBool true]),
     called (CSave (getSecureSid opt id) (encryptData opt id data)) w).
Proof.
  intros Hi Hd. unfold saveSession. rewrite attached. cbn.
  rewrite Hi, Hd. cbn.
  assert (T : (typeof data =? "undefined") = false)
    by (destruct data; try reflexivity; discriminate).
  rewrite T. cbn. rewrite call_getSecureSid_returns by now right.
  unfold bind, lift, invoke. cbv zeta.
  now destruct (truthy _).
Qed.

Lemma destroySession_forwarded (id : value) (w : world) :
  truthy (opt_encrypt opt) = false \/
    typeof (if SessionData.instanceof id then SessionData.id id else id) = "string" ->
  destroySession opt this id w =
    let key := getSecureSid opt (if SessionData.instanceof id then SessionData.id id else id) in
    (Ret (b_reply backend (w_calls w) (CDestroy key)), called (CDestroy key) w).
Proof.
  intros Hk. unfold destroySession. rewrite attached. cbv zeta.
  unfold bind, lift. now rewrite (call_getSecureSid_returns _ Hk).
Qed.



Lemma readSession_attached (id build : value) (w : world) :
  truthy (opt_encrypt opt) = false \/
    typeof (if SessionData.instanceof id then SessionData.id id else id) = "string" ->
  readSession opt this id build w =
    let id' := if SessionData.instanceof id then SessionData.id id else id in
    let w' := called (CRead (getSecureSid opt id')) w in
    let args := b_reply backend (w_calls w) (CRead (getSecureSid opt id')) in
    if truthy (arg 0 args) then (Ret [arg 0 args], w')
    else match decryptData id' (arg 1 args) w' with
         | (Ret data, w'') =>
             (Ret [VNull; if truthy data && negb (is_false build)
                          then SessionData.new id' data else data], w'')
         | (Throw e, w'') => (Throw e, w'')
         end.
Proof.
  intros Hk. unfold readSession. rewrite attached. cbv zeta.
  unfold bind at 1. unfold lift. rewrite (call_getSecureSid_returns _ Hk).
  unfold bind at 1. unfold invoke.
  destruct (truthy (arg 0 _)); [reflexivity|].
  unfold bind. now destruct (decryptData _ _ _) as [[data|e] w''].
Qed.

Lemma readSession_calls (id build : value) (w : world) :
  truthy (opt_encrypt opt) = false \/
    typeof (if SessionData.instanceof id then SessionData.id id else id) = "string" ->
  w_calls (snd (readSession opt this id build w)) =
    (w_calls w ++
       [CRead (getSecureSid opt
                 (if SessionData.instanceof id then SessionData.id id else id))])%list.
Proof.
  intros Hk. rewrite readSession_attached by assumption. cbv zeta.
  destruct (truthy (arg 0 _)); [reflexivity|].
  match goal with |- context [decryptData ?i ?d ?w0] =>
    destruct (decryptData_returns i d w0) as (v & w'' & -> & Hc)
  end.
  cbn. now rewrite Hc.
Qed.

End Orchestrator.

(** On the reference host, a payload saved under encryption at rest and
    read back under the same identifier comes back with empty data. *)
Example saved_then_read :
  fst (readSession encrypting ready (VStr "abc") VUndefined
         (snd (saveSession encrypting ready
                 (VSession (VStr "abc") (VObj [("a", VNum 1)]) true) fresh))) =
    Ret [VNull; VSession (VStr "abc") (VObj []) false].
Proof. vm_compute. reflexivity. Qed.

(** C7. With no backend attached, [saveSession], [readSession] and
    [destroySession] complete at once with the [SESSION.NOT_READY] error.
    With a backend attached, [saveSession] completes with the
    [SESSION.INVALID] error on a payload that is not a [SessionData], and
    with [(null, false)] on a payload whose id is not a string, whose data
    is absent or whose save-needed predicate is false.  In every one of
    these cases no call reaches the backend: at most a line is logged. *)
Theorem validation_precedes_backend `{Host}
    (opt : options) (this : ThorinSessionStore) (w : world) :
  (store_slot this = None ->
     (forall sessionObj,
        saveSession opt this sessionObj w =
          (Ret [thorin_error "SESSION.NOT_READY" "Session storage is not ready."],
           logged LError "Session storage is not ready for saveSession." w)) /\
     (forall id build,
        readSession opt this id build w =
          (Ret [thorin_error "SESSION.NOT_READY" "Session storage is not ready."],
           logged LError "Session storage is not ready for readSession." w)) /\
     (forall id,
        destroySession opt this id w =
          (Ret [thorin_error "SESSION.NOT_READY" "Session storage is not ready."],
           logged LError "Session storage is not ready for destroySession." w))) /\
  (forall backend, store_slot this = Some backend ->
     (forall sessionObj,
        SessionData.instanceof sessionObj = false ->
        exists line,
          saveSession opt this sessionObj w =
            (Ret [thorin_error "SESSION.INVALID" "Invalid session"],
             logged LError line w)) /\
     (forall id data dirty,
        typeof id <> "string" \/ is_nullish data = true \/ dirty = false ->
        saveSession opt this (VSession id data dirty) w =
          (Ret [VNull; VBool false], w))) /\
  (forall l line, w_calls (logged l line w) = w_calls w).
Proof.
  split; [|split].
  - intros Hn. split; [|split]; intros.
    + now apply saveSession_not_ready.
    + now apply readSession_not_ready.
    + now apply destroySession_not_ready.
  - intros backend Ha. split.
    + intros sessionObj Hi. eexists. now apply (saveSession_invalid opt this backend).
    + intros id data dirty Hc. now apply (saveSession_skipped opt this backend).
  - reflexivity.
Qed.

Lemma validation_precedes_backend_witness :
  destroySession encrypting (constructor encrypting) (VStr "abc")
      (called (CSave (VStr "k") (VStr "v")) fresh) =
    (Ret [VError "SESSION.NOT_READY" "Session storage is not ready."],
     logged LError "Session storage is not ready for destroySession."
       (called (CSave (VStr "k") (VStr "v")) fresh)) /\
  (exists line,
     saveSession encrypting ready (VObj [("id", VStr "abc")]) fresh =
       (Ret [VError "SESSION.INVALID" "Invalid session"], logged LError line fresh)) /\
  saveSession encrypting ready (VSession (VStr "abc") (VObj [("a", VNum 1)]) false) fresh =
    (Ret [VNull; VBool false], fresh).
Proof.
  split; [|split].
  - apply (proj1 (validation_precedes_backend encrypting (constructor encrypting)
                    (called (CSave (VStr "k") (VStr "v")) fresh)) eq_refl).
  - apply (proj1 (proj1 (proj2 (validation_precedes_backend encrypting ready fresh))
                    (memory_backend "redis") eq_refl) (VObj [("id", VStr "abc")]) eq_refl).
  - apply (proj2 (proj1 (proj2 (validation_precedes_backend encrypting ready fresh))
                    (memory_backend "redis") eq_refl)).
    right. right. reflexivity.
Defined.

(** C6. The storage key depends on the raw identifier alone: it is the raw
    identifier when encryption at rest is off and the host's hash of it when
    on.  With a backend attached, the one call [saveSession] makes on it
    (for a payload to be written), the one [readSession] makes and the one
    [destroySession] makes all carry that key, whether the identifier is
    given raw or inside a payload. *)
Theorem storage_key_uniform `{Host}
    (opt : options) (this : ThorinSessionStore) (backend : Backend)
    (id data build : value) (dirty : bool) (w : world) :
  store_slot this = Some backend ->
  typeof id = "string" ->
  is_nullish data = false ->
  (forall x y, x = y -> getSecureSid opt x = getSecureSid opt y) /\
  (truthy (opt_encrypt opt) = false -> getSecureSid opt id = id) /\
  (truthy (opt_encrypt opt) = true -> getSecureSid opt id = sha2 id) /\
  w_calls (snd (saveSession opt this (VSession id data true) w)) =
    (w_calls w ++ [CSave (getSecureSid opt id) (encryptData opt id data)])%list /\
  w_calls (snd (readSession opt this id build w)) =
    (w_calls w ++ [CRead (getSecureSid opt id)])%list /\
  w_calls (snd (readSession opt this (VSession id data dirty) build w)) =
    (w_calls w ++ [CRead (getSecureSid opt id)])%list /\
  w_calls (snd (destroySession opt this id w)) =
    (w_calls w ++ [CDestroy (getSecureSid opt id)])%list /\
  w_calls (snd (destroySession opt this (VSession id data dirty) w)) =
    (w_calls w ++ [CDestroy (getSecureSid opt id)])%list.
Proof.
  intros Ha Hi Hd.
  assert (Raw : SessionData.instanceof id = false)
    by (destruct id; try reflexivity; discriminate).
  repeat match goal with |- _ /\ _ => split end.
  - now intros x y ->.
  - intros He. now rewrite getSecureSid_cases, He.
  - intros He. now rewrite getSecureSid_cases, He.
  - now rewrite (saveSession_written opt this backend Ha id data w Hi Hd).
  - rewrite (readSession_calls opt this backend Ha) by (rewrite Raw; now right).
    now rewrite Raw.
  - now rewrite (readSession_calls opt this backend Ha) by now right.
  - rewrite (destroySession_forwarded opt this backend Ha) by (rewrite Raw; now right).
    now rewrite Raw.
  - now rewrite (destroySession_forwarded opt this backend Ha) by now right.
Qed.

Lemma storage_key_uniform_witness :
  getSecureSid encrypting (VStr "abc") = VStr "7877" /\
  w_calls (snd (saveSession encrypting ready
                  (VSession (VStr "abc") (VObj [("a", VNum 1)]) true) fresh)) =
    [CSave (VStr "7877") (VStr "#461f5c1f070c403c")] /\
  w_calls (snd (readSession encrypting ready (VStr "abc") VUndefined fresh)) =
    [CRead (VStr "7877")] /\
  w_calls (snd (destroySession encrypting ready (VStr "abc") fresh)) =
    [CDestroy (VStr "7877")].
Proof.
  pose proof (storage_key_uniform encrypting ready (memory_backend "redis")
                (VStr "abc") (VObj [("a", VNum 1)]) VUndefined true fresh
                eq_refl eq_refl eq_refl) as (_ & _ & K & S & R & _ & D & _).
  split; [exact (K eq_refl) | split; [exact S | split; [exact R | exact D]]].
Defined.




(** ** The backend slot *)

Section Slot.

Context {stores : Stores}.
Variable opt : options.

Lemma set_store_attached (this : ThorinSessionStore) (b : Backend) (storeObj : value) :
  store_slot this = Some b -> set_store opt this storeObj = Ret this.
Proof. unfold set_store. now intros ->. Qed.

Lemma assign_attached (this : ThorinSessionStore) (b : Backend) (storeObj : value) :
  store_slot this = Some b -> assign opt this storeObj = this.
Proof. intros Ha. unfold assign. now rewrite (set_store_attached this b). Qed.

Lemma assign_all_attached (this : ThorinSessionStore) (b : Backend) (cfgs : list value) :
  store_slot this = Some b -> fold_left (assign opt) cfgs this = this.
Proof.
  intros Ha. induction cfgs as [|cfg cfgs IH]; simpl; [reflexivity|].
  now rewrite (assign_attached this b).
Qed.

Lemma createStore_unsupported (storeObj type : value) :
  get_prop storeObj "type" = Ret type ->
  is_string type "redis" = false -> is_string type "sql" = false ->
  is_string type "file" = false ->
  createStore opt storeObj =
    Throw (thorin_error "PLUGIN_SESSION"
             ("Invalid session store " ++ to_string type ++ " for the session plugin.")).
Proof. intros Ht Hr Hs Hf. unfold createStore. now rewrite Ht, Hr, Hs, Hf. Qed.

End Slot.

(** C8, the claim as stated fails: a first assignment whose configuration
    names an unsupported type throws and attaches nothing, and the
    assignment that follows it is not ignored. *)
Lemma first_assignment_can_fail :
  set_store plain (constructor plain) (VObj [("type", VStr "memory")]) =
    Throw (VError "PLUGIN_SESSION" "Invalid session store memory for the session plugin.") /\
  store_slot (assign plain (constructor plain) (VObj [("type", VStr "memory")])) = None /\
  store_slot (assign plain
                (assign plain (constructor plain) (VObj [("type", VStr "memory")]))
                (VObj [("type", VStr "file"); ("path", VStr "/tmp/sessions")])) =
    Some (memory_backend "file").
Proof. split; [reflexivity | split; reflexivity]. Qed.

(** C8, amended. A new instance has no backend.  On an instance with no
    backend, an assignment to [store] whose configuration [createStore]
    accepts (its type is ['redis'], ['sql'] or ['file']) attaches the
    backend built from it; one that [createStore] refuses throws and
    leaves the instance as it was.  Once a backend is attached every
    assignment returns silently and leaves the instance unchanged, however
    many follow.  Reading [store] gives [null]. *)
Theorem backend_set_once `{Stores}
    (opt : options) (this : ThorinSessionStore) (storeObj : value) :
  store_slot (constructor opt) = None /\
  (store_slot this = None ->
     (forall b, createStore opt storeObj = Ret b ->
        set_store opt this storeObj = Ret {| expire := expire this; store_slot := Some b |}) /\
     (forall e, createStore opt storeObj = Throw e ->
        set_store opt this storeObj = Throw e /\ assign opt this storeObj = this)) /\
  (get_prop storeObj "type" = Ret (VStr "redis") ->
     createStore opt storeObj = Ret (RedisStore storeObj opt)) /\
  (get_prop storeObj "type" = Ret (VStr "sql") ->
     createStore opt storeObj = Ret (SqlStore storeObj opt)) /\
  (get_prop storeObj "type" = Ret (VStr "file") ->
     exists path, get_prop storeObj "path" = Ret path /\
                  createStore opt storeObj = Ret (FileStore path opt)) /\
  (forall type, get_prop storeObj "type" = Ret type ->
     is_string type "redis" = false -> is_string type "sql" = false ->
     is_string type "file" = false ->
     exists e, createStore opt storeObj = Throw e) /\
  (forall b, store_slot this = Some b ->
     set_store opt this storeObj = Ret this /\
     forall cfgs, fold_left (assign opt) cfgs this = this) /\
  get_store this = VNull.
Proof.
  repeat match goal with |- _ /\ _ => split end.
  - reflexivity.
  - intros Hn. split.
    + intros b Hb. unfold set_store. now rewrite Hn, Hb.
    + intros e He. unfold assign, set_store. now rewrite Hn, He.
  - intros Ht. unfold createStore. now rewrite Ht.
  - intros Ht. unfold createStore. now rewrite Ht.
  - intros Ht. unfold createStore. rewrite Ht. cbn.
    destruct storeObj; try discriminate; cbn; eexists; split; reflexivity.
  - intros type Ht Hr Hs Hf. eexists. now apply createStore_unsupported with (type := type).
  - intros b Ha. split.
    + now apply set_store_attached with (b := b).
    + intros cfgs. now apply assign_all_attached with (b := b).
  - reflexivity.
Qed.

Lemma backend_set_once_witness :
  set_store plain (constructor plain) (VObj [("type", VStr "sql")]) =
    Ret {| expire := VNum 3600; store_slot := Some (memory_backend "sql") |} /\
  (set_store plain (constructor plain) (VObj [("type", VStr "memory")]) =
     Throw (VError "PLUGIN_SESSION" "Invalid session store memory for the session plugin.") /\
   assign plain (constructor plain) (VObj [("type", VStr "memory")]) = constructor plain) /\
  (set_store plain ready (VObj [("type", VStr "memory")]) = Ret ready /\
   fold_left (assign plain) [VObj [("type", VStr "file")]; VNull; VNum 3] ready = ready).
Proof.
  split; [|split].
  - apply (proj1 (proj1 (proj2 (@backend_set_once ref_stores plain (constructor plain)
                                  (VObj [("type", VStr "sql")]))) eq_refl)
             (memory_backend "sql") eq_refl).
  - apply (proj2 (proj1 (proj2 (@backend_set_once ref_stores plain (constructor plain)
                                  (VObj [("type", VStr "memory")]))) eq_refl)
             (VError "PLUGIN_SESSION" "Invalid session store memory for the session plugin.")
             eq_refl).
  - destruct (proj1 (proj2 (proj2 (proj2 (proj2 (proj2 (proj2
               (@backend_set_once ref_stores plain ready (VObj [("type", VStr "memory")]))))))))
               (memory_backend "redis") eq_refl) as [S F].
    split; [exact S | exact (F _)].
Defined.

(** * Further properties of the store *)

(** ** Identifiers and signatures *)


Lemma remove_all_length (c : ascii) (s : string) :
  String.length (remove_all c s) + occurrences c s = String.length s.
Proof.
  induction s as [|d s IH]; simpl; [reflexivity|].
  destruct (Ascii.eqb d c); simpl; lia.
Qed.

Lemma remove_all_occurrences (c sep : ascii) (s : string) :
  occurrences sep s = 0 -> occurrences sep (remove_all c s) = 0.
Proof.
  induction s as [|d s IH]; simpl; [reflexivity|].
  destruct (Ascii.eqb d sep) eqn:E; [discriminate|]. simpl. intros H.
  destruct (Ascii.eqb d c); simpl; [|rewrite E]; auto.
Qed.

Lemma substring_occurrences (sep : ascii) (n : nat) (s : string) :
  occurrences sep s = 0 -> occurrences sep (substring 0 n s) = 0.
Proof.
  revert s. induction n as [|n IH]; intros [|d s]; simpl; try reflexivity.
  destruct (Ascii.eqb d sep); [discriminate|]. simpl. apply IH.
Qed.

Lemma substring_length (n : nat) (s : string) :
  n <= String.length s -> String.length (substring 0 n s) = n.
Proof.
  revert s. induction n as [|n IH]; intros [|d s]; simpl; try reflexivity; try lia.
  intros H. rewrite IH; lia.
Qed.

Lemma append_length (a b : string) :
  String.length (a ++ b) = String.length a + String.length b.
Proof. induction a as [|c a IH]; simpl; [reflexivity | now rewrite IH]. Qed.




(** X3. With a secret configured, a candidate whose part after the first
    segment is not the digest of that segment is refused, and so is an
    identifier that carries no signature at all. *)
Theorem tampered_signature_rejected `{Host} (opt : options) (a sign : string) :
  truthy (opt_secret opt) = true ->
  compare_decides ->
  sign <> hmac a (opt_secret opt) "sha1" ->
  verifySignature opt (VStr (a ++ "." ++ sign)) = Ret (VBool false) /\
  (occurrences SID_SPLIT a = 0 -> verifySignature opt (VStr a) = Ret (VBool false)).
Proof.
  intros Hs Hc Hn. split.
  - destruct (Nat.eq_dec (occurrences SID_SPLIT a + occurrences SID_SPLIT sign) 0) as [Z|Z].
    + change (a ++ "." ++ sign) with (a ++ String SID_SPLIT sign).
      rewrite verifySignature_pair by (assumption || lia).
      destruct (compare _ sign) eqn:E; [|reflexivity].
      apply Hc in E. now contradiction Hn.
    + apply verifySignature_shape; [assumption|].
      rewrite split_length, occurrences_app. simpl. lia.
  - intros Ha. apply verifySignature_shape; [assumption|].
    rewrite split_length, Ha. discriminate.
Qed.

Lemma tampered_signature_rejected_witness :
  verifySignature signing (VStr "abc.969c") = Ret (VBool false) /\
  verifySignature signing (VStr "abc") = Ret (VBool false).
Proof.
  destruct (tampered_signature_rejected signing "abc" "969c" eq_refl
              ref_compare_decides ltac:(discriminate)) as [T U].
  split; [exact T | exact (U eq_refl)].
Defined.

Lemma Ret_inj {A : Type} (a b : A) : Ret a = Ret b -> a = b.
Proof. intros E. now injection E. Qed.

Lemma generateId_string `{Host} (d : draws) (h : string) :
  sha2 (VStr (remove_all "-" (uuid_v4 d) ++ "" ++ string_of_Z (Date_now d))) = VStr h ->
  generateId d =
    Ret (VStr (randomString d 8 ++ remove_all "-" (uuid_v4 d) ++ substring 0 8 h)).
Proof. intros E. unfold generateId. cbv zeta. now rewrite E. Qed.

(** X4. [generateId] returns the eight random characters, the UUID without
    its dashes and the first eight characters of the hash, in that order:
    48 characters when the UUID has its 36 characters with 4 dashes and the
    hash has at least eight. *)
Theorem generateId_length `{Host} (d : draws) (h : string) :
  String.length (randomString d 8) = 8 ->
  String.length (uuid_v4 d) = 36 ->
  occurrences "-" (uuid_v4 d) = 4 ->
  sha2 (VStr (remove_all "-" (uuid_v4 d) ++ "" ++ string_of_Z (Date_now d))) = VStr h ->
  8 <= String.length h ->
  exists g,
    generateId d = Ret (VStr g) /\
    g = randomString d 8 ++ remove_all "-" (uuid_v4 d) ++ substring 0 8 h /\
    String.length g = 48.
Proof.
  intros Hr Hu Hd Hh Hl.
  exists (randomString d 8 ++ remove_all "-" (uuid_v4 d) ++ substring 0 8 h).
  split; [exact (generateId_string d h Hh)|].
  split; [reflexivity|].
  rewrite !append_length, Hr. rewrite (substring_length 8 h Hl).
  pose proof (remove_all_length "-" (uuid_v4 d)). lia.
Qed.

Lemma generateId_length_witness :
  exists g,
    @generateId wide_host sample_draws = Ret (VStr g) /\
    g = "Zk3pQ9xW" ++ "110ec58aa0f24ac48393c866d813b8d1" ++ "f99d14db" /\
    String.length g = 48.
Proof.
  exact (@generateId_length wide_host sample_draws "f99d14db4b576695"
           eq_refl eq_refl eq_refl eq_refl ltac:(simpl; lia)).
Defined.

(** X5. When the draws and the characters taken from the hash hold no
    delimiter, an identifier made by [generateId] is signed by [signId] and
    handed back by [verifySignature]. *)
Theorem generated_id_verifies `{Host} (opt : options) (d : draws) (g : string) :
  truthy (opt_secret opt) = true ->
  digest_text -> compare_decides ->
  occurrences SID_SPLIT (uuid_v4 d) = 0 ->
  occurrences SID_SPLIT (randomString d 8) = 0 ->
  (forall text h, call_substr (sha2 text) 0 8 = Ret h -> occurrences SID_SPLIT h = 0) ->
  generateId d = Ret (VStr g) ->
  signId opt (VStr g) = VStr (g ++ "." ++ hmac g (opt_secret opt) "sha1") /\
  verifySignature opt (signId opt (VStr g)) = Ret (VStr g).
Proof.
  intros Hs Hd Hc Hu Hr Hh Hg.
  assert (G : occurrences SID_SPLIT g = 0).
  { unfold generateId in Hg. cbv zeta in Hg.
    destruct (call_substr (sha2 _) 0 8) as [h|e] eqn:E; [|discriminate].
    injection Hg as <-.
    rewrite !occurrences_app, Hr, remove_all_occurrences by assumption.
    now rewrite (Hh _ _ E). }
  rewrite signId_raw by assumption. split; [reflexivity|].
  rewrite verifySignature_pair; try assumption.
  - now rewrite (proj2 (Hc _ _) eq_refl).
  - apply Hd.
Qed.

Lemma generated_id_verifies_witness :
  signId signing (VStr "Zk3pQ9xW110ec58aa0f24ac48393c866d813b8d1f99d") =
    VStr ("Zk3pQ9xW110ec58aa0f24ac48393c866d813b8d1f99d" ++ "."
            ++ hmac "Zk3pQ9xW110ec58aa0f24ac48393c866d813b8d1f99d" (VStr "s") "sha1") /\
  verifySignature signing (signId signing (VStr "Zk3pQ9xW110ec58aa0f24ac48393c866d813b8d1f99d")) =
    Ret (VStr "Zk3pQ9xW110ec58aa0f24ac48393c866d813b8d1f99d").
Proof.
  apply (generated_id_verifies signing sample_draws
           "Zk3pQ9xW110ec58aa0f24ac48393c866d813b8d1f99d"
           eq_refl ref_digest_text ref_compare_decides eq_refl eq_refl).
  - intros text h E.
    assert (E' : Ret (substring 0 8 (digest (checksum 11 (to_string text)))) = Ret h)
      by exact E.
    rewrite <- (Ret_inj _ _ E').
    apply substring_occurrences, digest_plain.
  - reflexivity.
Defined.

(** ** Records and operations *)

Lemma unmarked_cases (data : value) :
  (forall text, data <> VStr (String ENC_SPLIT text)) ->
  typeof data <> "string" \/ exists s, data = VStr s /\ charAt0 s <> String ENC_SPLIT "".
Proof.
  intros U. destruct data as [| | | |s| | | | |]; try (left; discriminate).
  right. exists s. split; [reflexivity|].
  destruct s as [|c s]; [discriminate|]. cbn. intros E. injection E as ->.
  now apply (U s).
Qed.

Lemma decryptData_plain `{Host} (sid data : value) (w : world) :
  (forall text, data <> VStr (String ENC_SPLIT text)) ->
  decryptData sid data w = (Ret data, w).
Proof.
  intros U. destruct (unmarked_cases data U) as [T|(s & -> & C)].
  - now apply decryptData_not_string.
  - now apply decryptData_unmarked.
Qed.

(** X6. A payload the cipher leaves alone (encryption at rest off, or the
    cipher failing) is stored as it is, and comes back from [decryptData]
    unchanged and without a warning, unless it is a string that opens with
    the marker. *)
Theorem plaintext_record_roundtrip `{Host}
    (opt : options) (sid data : value) (w : world) :
  truthy (opt_encrypt opt) = false \/ truthy (encrypt data sid) = false ->
  (forall text, data <> VStr (String ENC_SPLIT text)) ->
  encryptData opt sid data = data /\
  decryptData sid (encryptData opt sid data) w = (Ret data, w).
Proof.
  intros Hp U.
  assert (E : encryptData opt sid data = data).
  { unfold encryptData. destruct (truthy (opt_encrypt opt)); [|reflexivity].
    destruct Hp as [Hp|Hp]; [discriminate|]. now rewrite Hp. }
  rewrite E. split; [reflexivity|]. now apply decryptData_plain.
Qed.

Lemma plaintext_record_roundtrip_witness :
  (encryptData plain (VStr "abc") (VObj [("a", VNum 1)]) = VObj [("a", VNum 1)] /\
   decryptData (VStr "abc") (encryptData plain (VStr "abc") (VObj [("a", VNum 1)])) fresh =
     (Ret (VObj [("a", VNum 1)]), fresh)) /\
  (encryptData encrypting (VNum 7) (VStr "text") = VStr "text" /\
   decryptData (VNum 7) (encryptData encrypting (VNum 7) (VStr "text")) fresh =
     (Ret (VStr "text"), fresh)).
Proof.
  split.
  - apply (plaintext_record_roundtrip plain (VStr "abc") (VObj [("a", VNum 1)]) fresh).
    + left. reflexivity.
    + discriminate.
  - apply (plaintext_record_roundtrip encrypting (VNum 7) (VStr "text") fresh).
    + right. reflexivity.
    + discriminate.
Defined.



(** X8. For a payload that is to be written, [saveSession] makes one call
    on the backend.  With encryption at rest off the call carries the raw
    identifier and the data as they are; with it on, the key is the hash of
    the identifier and the record is the marked cipher text, or the plain
    data when the cipher fails.  It completes with the backend's error when
    there is one and with [(null, true)] otherwise. *)
Theorem saved_record `{Host}
    (opt : options) (this : ThorinSessionStore) (backend : Backend)
    (id data : value) (w : world) :
  store_slot this = Some backend ->
  typeof id = "string" ->
  is_nullish data = false ->
  exists key record,
    snd (saveSession opt this (VSession id data true) w) = called (CSave key record) w /\
    (truthy (arg 0 (b_reply backend (w_calls w) (CSave key record))) = true ->
     fst (saveSession opt this (VSession id data true) w) =
       Ret [arg 0 (b_reply backend (w_calls w) (CSave key record))]) /\
    (truthy (arg 0 (b_reply backend (w_calls w) (CSave key record))) = false ->
     fst (saveSession opt this (VSession id data true) w) = Ret [VNull; VBool true]) /\
    (truthy (opt_encrypt opt) = false -> key = id /\ record = data) /\
    (truthy (opt_encrypt opt) = true ->
     key = sha2 id /\
     (truthy (encrypt data id) = true ->
      record = VStr (String ENC_SPLIT (to_string (encrypt data id)))) /\
     (truthy (encrypt data id) = false -> record = data)).
Proof.
  intros Ha Hi Hd.
  exists (getSecureSid opt id), (encryptData opt id data).
  rewrite (saveSession_written opt this backend Ha id data w Hi Hd). cbv zeta. cbn [fst snd].
  split; [reflexivity|]. split; [now intros ->|]. split; [now intros ->|].
  unfold getSecureSid, encryptData. split; intros ->; cbn [negb].
  - now split.
  - split; [reflexivity|]. split; now intros ->.
Qed.

Lemma saved_record_witness :
  exists key record,
    snd (saveSession encrypting ready (VSession (VStr "abc") (VObj [("a", VNum 1)]) true) fresh) =
      called (CSave key record) fresh /\
    fst (saveSession encrypting ready (VSession (VStr "abc") (VObj [("a", VNum 1)]) true) fresh) =
      Ret [VNull; VBool true] /\
    key = VStr "7877" /\ record = VStr "#461f5c1f070c403c".
Proof.
  destruct (saved_record encrypting ready (memory_backend "redis")
              (VStr "abc") (VObj [("a", VNum 1)]) fresh eq_refl eq_refl eq_refl)
    as (key & record & W & _ & F & _ & E).
  exists key, record.
  destruct (E eq_refl) as (K & R & _).
  split; [exact W|]. split; [|split; [exact K | exact (R eq_refl)]].
  apply F. rewrite K, (R eq_refl). reflexivity.
Defined.

(** X9. With a backend attached, and encryption at rest off or an
    identifier that is a string, [readSession] completes with the
    backend's error when the read reports one, without decrypting or
    logging.  When the read reports none and the record is not a marked
    string, it completes with the record bound to the identifier in a new
    payload; but a record that is falsy (nothing found), or any record when
    [shouldBuildObject] is [false], is handed over as it is. *)
Theorem read_outcomes `{Host}
    (opt : options) (this : ThorinSessionStore) (backend : Backend)
    (given id build : value) (reply : list value) (w : world) :
  store_slot this = Some backend ->
  id = (if SessionData.instanceof given then SessionData.id given else given) ->
  truthy (opt_encrypt opt) = false \/ typeof id = "string" ->
  reply = b_reply backend (w_calls w) (CRead (getSecureSid opt id)) ->
  (truthy (arg 0 reply) = true ->
   readSession opt this given build w =
     (Ret [arg 0 reply], called (CRead (getSecureSid opt id)) w)) /\
  (truthy (arg 0 reply) = false ->
   (forall text, arg 1 reply <> VStr (String ENC_SPLIT text)) ->
   readSession opt this given build w =
     (Ret [VNull; if truthy (arg 1 reply) && negb (is_false build)
                  then SessionData.new id (arg 1 reply) else arg 1 reply],
      called (CRead (getSecureSid opt id)) w) /\
   (truthy (arg 1 reply) = false \/ build = VBool false ->
    fst (readSession opt this given build w) = Ret [VNull; arg 1 reply])).
Proof.
  intros Ha -> Hk ->. rewrite (readSession_attached opt this backend Ha) by exact Hk.
  cbv zeta. split; [now intros ->|].
  intros -> U. rewrite decryptData_plain by assumption.
  split; [reflexivity|].
  intros [-> | ->]; [reflexivity|]. cbn. now rewrite andb_false_r.
Qed.

Lemma read_outcomes_witness :
  readSession plain ready (VStr "nobody") VUndefined fresh =
    (Ret [VNull; VNull], called (CRead (VStr "nobody")) fresh) /\
  readSession plain ready (VStr "abc") (VBool false)
      (called (CSave (VStr "abc") (VObj [("a", VNum 1)])) fresh) =
    (Ret [VNull; VObj [("a", VNum 1)]],
     called (CRead (VStr "abc")) (called (CSave (VStr "abc") (VObj [("a", VNum 1)])) fresh)).
Proof.
  split.
  - apply (proj2 (read_outcomes plain ready (memory_backend "redis")
                    (VStr "nobody") (VStr "nobody") VUndefined
                    [VNull; VNull] fresh eq_refl eq_refl
                    (or_intror eq_refl) eq_refl) eq_refl).
    discriminate.
  - apply (proj2 (read_outcomes plain ready (memory_backend "redis")
                    (VStr "abc") (VStr "abc") (VBool false)
                    [VNull; VObj [("a", VNum 1)]]
                    (called (CSave (VStr "abc") (VObj [("a", VNum 1)])) fresh)
                    eq_refl eq_refl (or_intror eq_refl) eq_refl) eq_refl).
    discriminate.
Defined.

(** ** Backends *)

Lemma is_string_eq (v : value) (s : string) : is_string v s = true -> v = VStr s.
Proof.
  destruct v; cbn; try discriminate. intros E. now apply String.eqb_eq in E as ->.
Qed.

(** X10. [createStore] builds a backend only from an object whose [type]
    is exactly ['redis'], ['sql'] or ['file'] (the file store from its
    [path]).  On [undefined] or [null] it throws a [TypeError]; on anything
    else it throws the [PLUGIN_SESSION] error that names the type it
    found. *)
Theorem createStore_accepts `{Stores} (opt : options) (cfg : value) :
  (is_nullish cfg = true -> exists msg, createStore opt cfg = Throw (TypeError msg)) /\
  (forall b, createStore opt cfg = Ret b ->
     exists fields,
       cfg = VObj fields /\
       (lookup "type" fields = VStr "redis" /\ b = RedisStore cfg opt \/
        lookup "type" fields = VStr "sql" /\ b = SqlStore cfg opt \/
        lookup "type" fields = VStr "file" /\ b = FileStore (lookup "path" fields) opt)) /\
  (is_nullish cfg = false ->
   forall e, createStore opt cfg = Throw e ->
     exists type,
       get_prop cfg "type" = Ret type /\
       e = thorin_error "PLUGIN_SESSION"
             ("Invalid session store " ++ to_string type ++ " for the session plugin.")).
Proof.
  split; [|split].
  - destruct cfg; try discriminate; intros _; eexists; reflexivity.
  - intros b. unfold createStore.
    destruct cfg as [| | | | | |fields| |id data dirty|]; cbn; try discriminate.
    destruct (is_string (lookup "type" fields) "redis") eqn:R;
      [intros E; injection E as <-; exists fields; split; [reflexivity|];
       left; split; [now apply is_string_eq | reflexivity]|].
    destruct (is_string (lookup "type" fields) "sql") eqn:S;
      [intros E; injection E as <-; exists fields; split; [reflexivity|];
       right; left; split; [now apply is_string_eq | reflexivity]|].
    destruct (is_string (lookup "type" fields) "file") eqn:F; [|discriminate].
    intros E; injection E as <-. exists fields. split; [reflexivity|].
    right; right. split; [now apply is_string_eq | reflexivity].
  - intros Hn e. unfold createStore.
    destruct (get_prop cfg "type") as [type|x] eqn:G;
      [|destruct cfg; discriminate].
    destruct (is_string type "redis"); [discriminate|].
    destruct (is_string type "sql"); [discriminate|].
    destruct (is_string type "file").
    + destruct (get_prop cfg "path") eqn:P; [discriminate|].
      destruct cfg; discriminate.
    + intros E. injection E as <-. now exists type.
Qed.

Lemma createStore_accepts_witness :
  (exists msg, createStore plain VNull = Throw (TypeError msg)) /\
  (exists fields,
     VObj [("type", VStr "file"); ("path", VStr "/tmp/s")] = VObj fields /\
     lookup "type" fields = VStr "file") /\
  (exists type,
     get_prop (VObj [("type", VNum 5)]) "type" = Ret type /\
     VError "PLUGIN_SESSION" "Invalid session store 5 for the session plugin." =
       thorin_error "PLUGIN_SESSION"
         ("Invalid session store " ++ to_string type ++ " for the session plugin.")).
Proof.
  split; [|split].
  - apply (proj1 (@createStore_accepts ref_stores plain VNull) eq_refl).
  - destruct (proj1 (proj2 (@createStore_accepts ref_stores plain
                (VObj [("type", VStr "file"); ("path", VStr "/tmp/s")])))
                (memory_backend "file") eq_refl) as (fields & E & [[T _]|[[T _]|[T _]]]);
      injection E as <-; try discriminate.
    exists [("type", VStr "file"); ("path", VStr "/tmp/s")]. split; reflexivity.
  - apply (proj2 (proj2 (@createStore_accepts ref_stores plain (VObj [("type", VNum 5)])))
             eq_refl (VError "PLUGIN_SESSION" "Invalid session store 5 for the session plugin.")
             eq_refl).
Defined.

Lemma fold_assign_none `{Stores} (opt : options) (cfgs : list value)
    (this : ThorinSessionStore) :
  store_slot this = None ->
  store_slot (fold_left (assign opt) cfgs this) = first_accepted opt cfgs /\
  expire (fold_left (assign opt) cfgs this) = expire this.
Proof.
  revert this. induction cfgs as [|cfg cfgs IH]; intros this Hn; simpl.
  - now split.
  - unfold assign at 2 4. unfold set_store. rewrite Hn.
    destruct (createStore opt cfg) as [b|e].
    + rewrite (assign_all_attached opt _ b) by reflexivity. now split.
    + now apply IH.
Qed.

(** X11. After any run of assignments to [store] on a new instance, the
    backend attached is the one built from the first configuration of the
    run that [createStore] accepts, none when it accepts none; [expire]
    stays what the options gave. *)
Theorem assignments_keep_first_accepted `{Stores} (opt : options) (cfgs : list value) :
  store_slot (fold_left (assign opt) cfgs (constructor opt)) = first_accepted opt cfgs /\
  expire (fold_left (assign opt) cfgs (constructor opt)) = opt_expire opt.
Proof. now apply fold_assign_none. Qed.

(** X12. With encryption at rest off, on a backend that answers the read
    of a key with the record last saved under it, a payload holding an
    object saved by [saveSession] comes back from [readSession] under the
    same identifier: bound to it in a new payload, or as it is when
    [shouldBuildObject] is [false]. *)
Theorem saved_payload_reads_back `{Host}
    (opt : options) (this : ThorinSessionStore) (backend : Backend)
    (id data build e : value) (w : world) :
  store_slot this = Some backend ->
  truthy (opt_encrypt opt) = false ->
  typeof id = "string" ->
  typeof data = "object" ->
  is_nullish data = false ->
  truthy e = false ->
  b_reply backend (w_calls w ++ [CSave id data])%list (CRead id) = [e; data] ->
  fst (readSession opt this id build
         (snd (saveSession opt this (VSession id data true) w))) =
    Ret [VNull; if negb (is_false build) then SessionData.new id data else data].
Proof.
  intros Ha He Hi Ho Hd Hf Hr.
  rewrite (saveSession_written opt this backend Ha id data w Hi Hd). cbn [snd].
  assert (K : getSecureSid opt id = id) by now rewrite getSecureSid_cases, He.
  assert (E : encryptData opt id data = data) by (unfold encryptData; now rewrite He).
  assert (Raw : SessionData.instanceof id = false)
    by (destruct id; try reflexivity; discriminate).
  rewrite K, E, (readSession_attached opt this backend Ha) by now left.
  cbv zeta. rewrite Raw, K. cbn [called w_calls]. rewrite Hr. cbn [arg nth]. rewrite Hf.
  rewrite decryptData_not_string by (rewrite Ho; discriminate).
  cbn [fst]. destruct data; try discriminate; reflexivity.
Qed.

Lemma saved_payload_reads_back_witness :
  fst (readSession plain ready (VStr "abc") VUndefined
         (snd (saveSession plain ready
                 (VSession (VStr "abc") (VObj [("a", VNum 1)]) true) fresh))) =
    Ret [VNull; VSession (VStr "abc") (VObj [("a", VNum 1)]) false].
Proof.
  exact (saved_payload_reads_back plain ready (memory_backend "redis")
           (VStr "abc") (VObj [("a", VNum 1)]) VUndefined VNull fresh
           eq_refl eq_refl eq_refl eq_refl eq_refl eq_refl eq_refl).
Defined.

(** X13. With a secret configured, two different raw identifiers that
    hold no delimiter are never signed to the same text. *)
Theorem signId_injective `{Host} (opt : options) (a b : string) :
  truthy (opt_secret opt) = true ->
  occurrences SID_SPLIT a = 0 ->
  occurrences SID_SPLIT b = 0 ->
  a <> b ->
  signId opt (VStr a) <> signId opt (VStr b).
Proof.
  intros Hs Ha Hb Hn. rewrite !signId_raw by assumption.
  intros E. injection E as E. apply (f_equal (split SID_SPLIT)) in E.
  rewrite !split_first in E by assumption. apply Hn. now injection E.
Qed.

Lemma signId_injective_witness :
  signId signing (VStr "abc") = VStr "abc.969b" /\
  signId signing (VStr "abd") <> signId signing (VStr "abc").
Proof.
  split; [reflexivity|].
  apply (signId_injective signing "abd" "abc" eq_refl eq_refl eq_refl).
  discriminate.
Defined.
